(** * azure-collector: construction and boot of the collector service

    A shallow embedding of [service/service.go]: the constructor [New], its
    helper [buildK8sRestConfig] and the method [Service.Boot], followed by the
    properties of the construction pipeline and of the one-time boot guard.

    Go packages become modules.  Objects of packages the service only holds
    (logger, REST descriptor, API clients, collector sets, version service)
    are opaque: their types are fields of [Handles] and their constructors
    are fields of [Collaborators]. *)

From stdpp Require Import base option list strings relations.

Local Open Scope string_scope.
Local Open Scope list_scope.
Local Open Scope nat_scope.

(** ** Opaque object types of the collaborating packages *)

Record Handles : Type := {
  micrologger_Logger : Type;
  rest_Config : Type;
  k8sclient_Clients : Type;
  collector_Set : Type;
  statusresource_CollectorSet : Type;
  version_Service : Type;
  versionbundle_Bundle : Type;
  context_Context : Type;
}.

(** ** Package flag: the names of the configuration keys.

    The package is imported by [service.go]; the record shape below is the
    one fixed by the selector paths the service uses
    ([config.Flag.Service.Kubernetes.TLS.CAFile] and so on). *)
Module flag.
Record KubernetesTLS : Type := {
  CAFile : string;
  CrtFile : string;
  KeyFile : string;
}.
Record Kubernetes : Type := {
  Address : string;
  InCluster : string;
  KubeConfig : string;
  KubeConfigPath : string;
  TLS : KubernetesTLS;
}.
Record Azure : Type := {
  SPTenantID : string;
}.
Record Service : Type := {
  Azure_ : Azure;
  ControlPlaneResourceGroup : string;
  Kubernetes_ : Kubernetes;
  Location : string;
}.
Record Flag : Type := {
  Service_ : Service;
}.
End flag.

(** ** Package viper: the settings store, read by key. *)
Module viper.
Record Viper : Type := {
  GetString : string -> string;
  GetBool : string -> bool;
}.
End viper.

(** ** Package microerror *)
Module microerror.
(** The error values a package declares.  [invalidConfigError] is the one
    of package service. *)
Inductive Kind : Type := invalidConfigError.

(** [Foreign] is an error value produced by a collaborating package,
    [Maskf k msg] is [microerror.Maskf(k, msg)] and [Mask e] is
    [microerror.Mask(e)]. *)
Inductive error : Type :=
| Foreign (text : string)
| Maskf (k : Kind) (msg : string)
| Mask (e : error).
End microerror.

(** ** Configuration records of the collaborating packages *)

Module k8srestconfig.
Record ConfigTLS : Type := {
  CAFile : string;
  CrtFile : string;
  KeyFile : string;
}.
Record Config (H : Handles) : Type := {
  Logger : option (micrologger_Logger H);
  Address : string;
  InCluster : bool;
  KubeConfig : string;
  TLS : ConfigTLS;
}.
Arguments Logger {H}.
Arguments Address {H}.
Arguments InCluster {H}.
Arguments KubeConfig {H}.
Arguments TLS {H}.
End k8srestconfig.

Module k8sclient.
(** The two [AddToScheme] functions the service registers. *)
Inductive AddToScheme : Type :=
| v1alpha1_AddToScheme
| capiv1alpha3_AddToScheme.

Record ClientsConfig (H : Handles) : Type := {
  Logger : option (micrologger_Logger H);
  SchemeBuilder : list AddToScheme;
  KubeConfigPath : string;
  RestConfig : option (rest_Config H);
}.
Arguments Logger {H}.
Arguments SchemeBuilder {H}.
Arguments KubeConfigPath {H}.
Arguments RestConfig {H}.
End k8sclient.

Module collector.
Record SetConfig (H : Handles) : Type := {
  ControlPlaneResourceGroup : string;
  Location : string;
  Logger : option (micrologger_Logger H);
  K8sClient : k8sclient_Clients H;
  GSTenantID : string;
}.
Arguments ControlPlaneResourceGroup {H}.
Arguments Location {H}.
Arguments Logger {H}.
Arguments K8sClient {H}.
Arguments GSTenantID {H}.
End collector.

Module statusresource.
(** The method value
    [k8sClient.G8sClient().ProviderV1alpha1().AzureConfigs(ns).Watch]. *)
Record Watcher (H : Handles) : Type := AzureConfigs_Watch {
  watch_client : k8sclient_Clients H;
  watch_namespace : string;
}.
Arguments AzureConfigs_Watch {H}.
Arguments watch_client {H}.
Arguments watch_namespace {H}.

Record CollectorSetConfig (H : Handles) : Type := {
  Logger : option (micrologger_Logger H);
  Watcher_ : Watcher H;
}.
Arguments Logger {H}.
Arguments Watcher_ {H}.
End statusresource.

Module version.
Record Config (H : Handles) : Type := {
  Description : string;
  GitCommit : string;
  Name : string;
  Source : string;
  Version : string;
  VersionBundles : list (versionbundle_Bundle H);
}.
Arguments Description {H}.
Arguments GitCommit {H}.
Arguments Name {H}.
Arguments Source {H}.
Arguments Version {H}.
Arguments VersionBundles {H}.
End version.

(** ** The collaborators: constructors of the opaque objects.

    Each returns either the error of its package or the object, the way a Go
    constructor returns [(nil, err)] or [(obj, nil)]. *)
Record Collaborators (H : Handles) : Type := {
  k8srestconfig_New : k8srestconfig.Config H -> string + rest_Config H;
  k8sclient_NewClients : k8sclient.ClientsConfig H -> string + k8sclient_Clients H;
  collector_NewSet : collector.SetConfig H -> string + collector_Set H;
  statusresource_NewCollectorSet :
    statusresource.CollectorSetConfig H -> string + statusresource_CollectorSet H;
  version_New : version.Config H -> string + version_Service H;
  project_NewVersionBundle : versionbundle_Bundle H;
}.
Arguments k8srestconfig_New {H}.
Arguments k8sclient_NewClients {H}.
Arguments collector_NewSet {H}.
Arguments statusresource_NewCollectorSet {H}.
Arguments version_New {H}.
Arguments project_NewVersionBundle {H}.

(** ** Package sync: the one-time guard.

    [done] is the flag of [sync.Once], [m] its mutex (true when held). *)
Module sync.
Record Once : Type := {
  done : bool;
  m : bool;
}.
(** The zero value [sync.Once{}]. *)
Definition zero : Once := {| done := false; m := false |}.
End sync.

(** ** Observable actions of the construction.

    Reads of the settings store and calls into the collaborating packages,
    in the order [New] performs them.  The calls are where a descriptor is
    built, a client is made and the cluster can be contacted. *)
Inductive Event (H : Handles) : Type :=
| ViperGetString (key : string)
| ViperGetBool (key : string)
| K8sRestConfigNew (c : k8srestconfig.Config H)
| K8sClientNewClients (c : k8sclient.ClientsConfig H)
| CollectorNewSet (c : collector.SetConfig H)
| StatusResourceNewCollectorSet (c : statusresource.CollectorSetConfig H)
| VersionNew (c : version.Config H).
Arguments ViperGetString {H}.
Arguments ViperGetBool {H}.
Arguments K8sRestConfigNew {H}.
Arguments K8sClientNewClients {H}.
Arguments CollectorNewSet {H}.
Arguments StatusResourceNewCollectorSet {H}.
Arguments VersionNew {H}.

(** A call into a collaborating package, as opposed to a read of settings. *)
Definition is_call {H} (ev : Event H) : bool :=
  match ev with
  | ViperGetString _ | ViperGetBool _ => false
  | _ => true
  end.

(** The call that builds a REST connection descriptor. *)
Definition is_rest_build {H} (ev : Event H) : bool :=
  match ev with
  | K8sRestConfigNew _ => true
  | _ => false
  end.

(** ** Runs: the actions performed so far and the value computed.

    The value is [None] when the run stopped in a nil-pointer panic. *)
Definition Run (H : Handles) (A : Type) : Type := list (Event H) * option A.

Global Instance Run_ret {H} : MRet (Run H) := λ A x, ([], Some x).
Global Instance Run_bind {H} : MBind (Run H) := λ A B f r,
  match r with
  | (t, Some a) => let '(t', b) := f a in (t ++ t', b)
  | (t, None) => (t, None)
  end.

Definition trace {H A} (r : Run H A) : list (Event H) := r.1.
Definition value {H A} (r : Run H A) : option A := r.2.

(** ** Package service *)
Module service.
Import microerror.

Record Config (H : Handles) : Type := {
  Logger : option (micrologger_Logger H);
  Flag : option flag.Flag;
  Viper : option viper.Viper;
  Description : string;
  GitCommit : string;
  ProjectName : string;
  Source : string;
  Version : string;
}.
Arguments Logger {H}.
Arguments Flag {H}.
Arguments Viper {H}.
Arguments Description {H}.
Arguments GitCommit {H}.
Arguments ProjectName {H}.
Arguments Source {H}.
Arguments Version {H}.

Record Service (H : Handles) : Type := {
  Version_ : version_Service H;
  bootOnce : sync.Once;
  operatorCollector : collector_Set H;
  statusResourceCollector : statusresource_CollectorSet H;
}.
Arguments Version_ {H}.
Arguments bootOnce {H}.
Arguments operatorCollector {H}.
Arguments statusResourceCollector {H}.

(** [x == nil] on a pointer or interface value. *)
Definition is_nil {A} (p : option A) : bool :=
  match p with
  | None => true
  | Some _ => false
  end.

(** The verb [%T] applied to a [Config] prints its Go type. *)
Definition Sprintf_T (rest : string) : string := "service.Config" +:+ rest.

Section WithCollaborators.
Context {H : Handles} (W : Collaborators H).

(** [config.Viper.GetString(config.Flag.<sel>)]; dereferencing a nil
    [Viper] or [Flag] panics. *)
Definition GetString (config : Config H) (sel : flag.Flag -> string) : Run H string :=
  match Viper config, Flag config with
  | Some v, Some f => ([ViperGetString (sel f)], Some (viper.GetString v (sel f)))
  | _, _ => ([], None)
  end.

(** [config.Viper.GetBool(config.Flag.<sel>)]. *)
Definition GetBool (config : Config H) (sel : flag.Flag -> string) : Run H bool :=
  match Viper config, Flag config with
  | Some v, Some f => ([ViperGetBool (sel f)], Some (viper.GetBool v (sel f)))
  | _, _ => ([], None)
  end.

(** A call into a collaborating package: the call is recorded, its
    result is the collaborator's. *)
Definition call {A} (ev : Event H) (r : string + A) : Run H (string + A) :=
  ([ev], Some r).

Definition buildK8sRestConfig (config : Config H)
  : Run H (option (rest_Config H) * option error) :=
  address ← GetString config (λ f, flag.Address (flag.Kubernetes_ (flag.Service_ f)));
  inCluster ← GetBool config (λ f, flag.InCluster (flag.Kubernetes_ (flag.Service_ f)));
  kubeConfig ← GetString config (λ f, flag.KubeConfig (flag.Kubernetes_ (flag.Service_ f)));
  caFile ← GetString config
    (λ f, flag.CAFile (flag.TLS (flag.Kubernetes_ (flag.Service_ f))));
  crtFile ← GetString config
    (λ f, flag.CrtFile (flag.TLS (flag.Kubernetes_ (flag.Service_ f))));
  keyFile ← GetString config
    (λ f, flag.KeyFile (flag.TLS (flag.Kubernetes_ (flag.Service_ f))));
  let c := {|
    k8srestconfig.Logger := Logger config;
    k8srestconfig.Address := address;
    k8srestconfig.InCluster := inCluster;
    k8srestconfig.KubeConfig := kubeConfig;
    k8srestconfig.TLS := {|
      k8srestconfig.CAFile := caFile;
      k8srestconfig.CrtFile := crtFile;
      k8srestconfig.KeyFile := keyFile;
    |};
  |} in
  r ← call (K8sRestConfigNew c) (k8srestconfig_New W c);
  match r with
  | inl err => mret (None, Some (Mask (Foreign err)))
  | inr restConfig => mret (Some restConfig, None)
  end.

(** The number of connection parameters that are defined, as [New]
    counts them after reading the three settings. *)
Definition count_defined (address : string) (inCluster : bool) (kubeConfigPath : string)
  : nat :=
  let defined := 0 in
  let defined := if negb (String.eqb address "") then S defined else defined in
  let defined := if inCluster then S defined else defined in
  let defined := if negb (String.eqb kubeConfigPath "") then S defined else defined in
  defined.

Definition New (config : Config H) : Run H (option (Service H) * option error) :=
  if is_nil (Logger config) then
    mret (None, Some (Maskf invalidConfigError (Sprintf_T ".Logger must not be empty")))
  else if is_nil (Flag config) then
    mret (None, Some (Maskf invalidConfigError (Sprintf_T ".Flag must not be empty")))
  else if is_nil (Viper config) then
    mret (None, Some (Maskf invalidConfigError (Sprintf_T ".Viper must not be empty")))
  else if String.eqb (Description config) "" then
    mret (None, Some (Maskf invalidConfigError (Sprintf_T ".Description must not be empty")))
  else if String.eqb (GitCommit config) "" then
    mret (None, Some (Maskf invalidConfigError (Sprintf_T ".GitCommit must not be empty")))
  else if String.eqb (ProjectName config) "" then
    mret (None, Some (Maskf invalidConfigError (Sprintf_T ".ProjectName must not be empty")))
  else if String.eqb (Source config) "" then
    mret (None, Some (Maskf invalidConfigError (Sprintf_T ".Source must not be empty")))
  else
  address ← GetString config (λ f, flag.Address (flag.Kubernetes_ (flag.Service_ f)));
  inCluster ← GetBool config (λ f, flag.InCluster (flag.Kubernetes_ (flag.Service_ f)));
  kubeConfigPath ← GetString config
    (λ f, flag.KubeConfigPath (flag.Kubernetes_ (flag.Service_ f)));
  let defined := count_defined address inCluster kubeConfigPath in
  if Nat.eqb defined 0 then
    mret (None, Some (Maskf invalidConfigError
      "address or inCluster or kubeConfigPath must be defined"))
  else if Nat.ltb 1 defined then
    mret (None, Some (Maskf invalidConfigError
      "address and inCluster and kubeConfigPath must not be defined at the same time"))
  else
  (* everything after the REST descriptor is settled *)
  let with_restConfig (restConfig : option (rest_Config H)) :=
    let c := {|
      k8sclient.Logger := Logger config;
      k8sclient.SchemeBuilder :=
        [k8sclient.v1alpha1_AddToScheme; k8sclient.capiv1alpha3_AddToScheme];
      k8sclient.KubeConfigPath := kubeConfigPath;
      k8sclient.RestConfig := restConfig;
    |} in
    r ← call (K8sClientNewClients c) (k8sclient_NewClients W c);
    match r with
    | inl err => mret (None, Some (Mask (Foreign err)))
    | inr k8sClient =>
    controlPlaneResourceGroup ← GetString config
      (λ f, flag.ControlPlaneResourceGroup (flag.Service_ f));
    location ← GetString config (λ f, flag.Location (flag.Service_ f));
    gsTenantID ← GetString config (λ f, flag.SPTenantID (flag.Azure_ (flag.Service_ f)));
    let c := {|
      collector.ControlPlaneResourceGroup := controlPlaneResourceGroup;
      collector.Location := location;
      collector.Logger := Logger config;
      collector.K8sClient := k8sClient;
      collector.GSTenantID := gsTenantID;
    |} in
    r ← call (CollectorNewSet c) (collector_NewSet W c);
    match r with
    | inl err => mret (None, Some (Mask (Foreign err)))
    | inr operatorCollector =>
    let c := {|
      statusresource.Logger := Logger config;
      statusresource.Watcher_ := statusresource.AzureConfigs_Watch k8sClient "";
    |} in
    r ← call (StatusResourceNewCollectorSet c) (statusresource_NewCollectorSet W c);
    match r with
    | inl err => mret (None, Some (Mask (Foreign err)))
    | inr statusResourceCollector =>
    let c := {|
      version.Description := Description config;
      version.GitCommit := GitCommit config;
      version.Name := ProjectName config;
      version.Source := Source config;
      version.Version := Version config;
      version.VersionBundles := [project_NewVersionBundle W];
    |} in
    r ← call (VersionNew c) (version_New W c);
    match r with
    | inl err => mret (None, Some (Mask (Foreign err)))
    | inr versionService =>
    let s := {|
      Version_ := versionService;
      bootOnce := sync.zero;
      operatorCollector := operatorCollector;
      statusResourceCollector := statusResourceCollector;
    |} in
    mret (Some s, None)
    end end end end
  in
  if String.eqb kubeConfigPath "" then
    '(restConfig, err) ← buildK8sRestConfig config;
    match err with
    | Some err => mret (None, Some (Mask err))
    | None => with_restConfig restConfig
    end
  else with_restConfig None.
End WithCollaborators.

(** *** Boot

    A goroutine started by the service: the run loop of one collector set
    with the context it was handed. *)
Inductive Goroutine (H : Handles) : Type :=
| operatorCollector_Boot (set : collector_Set H) (ctx : context_Context H)
| statusResourceCollector_Boot
    (set : statusresource_CollectorSet H) (ctx : context_Context H).
Arguments operatorCollector_Boot {H}.
Arguments statusResourceCollector_Boot {H}.

(** The memory a call of [Boot] works on: the service object behind the
    receiver [s] and the goroutines started so far, oldest first. *)
Record Process (H : Handles) : Type := {
  svc : Service H;
  goroutines : list (Goroutine H);
}.
Arguments svc {H}.
Arguments goroutines {H}.

(** Control points of one call [s.Boot(ctx)].  [AtDo] to [AtCheck] and
    [AtStore], [AtUnlock] are those of [sync.Once.Do] and its slow path;
    [AtGoOperator] and [AtGoStatus] are the two statements of the function
    literal handed to [Do]. *)
Inductive Point : Type :=
| AtDo           (* Do: if atomic.LoadUint32(&o.done) == 0 *)
| AtLock         (* doSlow: o.m.Lock() *)
| AtCheck        (* doSlow: if o.done == 0 *)
| AtGoOperator   (* go s.operatorCollector.Boot(ctx) *)
| AtGoStatus     (* go s.statusResourceCollector.Boot(ctx) *)
| AtStore        (* deferred: atomic.StoreUint32(&o.done, 1) *)
| AtUnlock       (* deferred: o.m.Unlock() *)
| Returned.

Global Instance Point_eq_dec : EqDecision Point.
Proof. solve_decision. Defined.

(** A caller of [Boot]: where it stands and the context it passed. *)
Record Caller (H : Handles) : Type := {
  point : Point;
  ctx : context_Context H;
}.
Arguments point {H}.
Arguments ctx {H}.

Section Boot.
Context {H : Handles}.

Definition move (c : Caller H) (pt : Point) : Caller H :=
  {| point := pt; ctx := ctx c |}.

Definition set_bootOnce (p : Process H) (o : sync.Once) : Process H :=
  {| svc := {| Version_ := Version_ (svc p);
               bootOnce := o;
               operatorCollector := operatorCollector (svc p);
               statusResourceCollector := statusResourceCollector (svc p) |};
     goroutines := goroutines p |}.

(** The [go] statement: the new goroutine joins the others. *)
Definition go (p : Process H) (g : Goroutine H) : Process H :=
  {| svc := svc p; goroutines := goroutines p ++ [g] |}.

(** One atomic step of a caller; [None] when the caller has returned or
    waits for the mutex. *)
Definition Boot_step (c : Caller H) (p : Process H) : option (Caller H * Process H) :=
  let s := svc p in
  let o := bootOnce s in
  match point c with
  | AtDo =>
      if sync.done o then Some (move c Returned, p) else Some (move c AtLock, p)
  | AtLock =>
      if sync.m o then None
      else Some (move c AtCheck,
                 set_bootOnce p {| sync.done := sync.done o; sync.m := true |})
  | AtCheck =>
      if sync.done o then Some (move c AtUnlock, p) else Some (move c AtGoOperator, p)
  | AtGoOperator =>
      Some (move c AtGoStatus, go p (operatorCollector_Boot (operatorCollector s) (ctx c)))
  | AtGoStatus =>
      Some (move c AtStore,
            go p (statusResourceCollector_Boot (statusResourceCollector s) (ctx c)))
  | AtStore =>
      Some (move c AtUnlock,
            set_bootOnce p {| sync.done := true; sync.m := sync.m o |})
  | AtUnlock =>
      Some (move c Returned,
            set_bootOnce p {| sync.done := sync.done o; sync.m := false |})
  | Returned => None
  end.

(** A caller run alone for at most [fuel] steps. *)
Fixpoint run_Boot (fuel : nat) (c : Caller H) (p : Process H) : Caller H * Process H :=
  match fuel with
  | 0 => (c, p)
  | S fuel' =>
      match Boot_step c p with
      | Some (c', p') => run_Boot fuel' c' p'
      | None => (c, p)
      end
  end.

(** [s.Boot(ctx)] called with nobody else inside [Boot]: the call has no
    result, its effect is the new memory.  Seven steps lead from [AtDo]
    to [Returned] on the longest path. *)
Definition Boot (ctx : context_Context H) (p : Process H) : Process H :=
  (run_Boot 7 {| point := AtDo; ctx := ctx |} p).2.

(** The memory right after [New] returned the service [s]. *)
Definition constructed (s : Service H) : Process H :=
  {| svc := s; goroutines := [] |}.

(** Several callers inside [Boot] at once, on one service. *)
Record System : Type := {
  callers : list (Caller H);
  proc : Process H;
}.

(** The scheduler picks a caller that can move and lets it take a step. *)
Inductive step : System → System → Prop :=
| step_caller σ i c c' p' :
    callers σ !! i = Some c →
    Boot_step c (proc σ) = Some (c', p') →
    step σ {| callers := <[i := c']> (callers σ); proc := p' |}.

(** All of [ctxs] call [Boot] on the freshly constructed [s]. *)
Definition boot_calls (s : Service H) (ctxs : list (context_Context H)) : System :=
  {| callers := (λ ctx, {| point := AtDo; ctx := ctx |}) <$> ctxs;
     proc := constructed s |}.

Definition all_returned (σ : System) : Prop :=
  Forall (λ c, point c = Returned) (callers σ).

(** What the start sequence run with [ctx] leaves behind. *)
Definition started (s : Service H) (ctx : context_Context H) : list (Goroutine H) :=
  [operatorCollector_Boot (operatorCollector s) ctx;
   statusResourceCollector_Boot (statusResourceCollector s) ctx].
End Boot.
Arguments System : clear implicits.
End service.

(** * Vocabulary of the properties *)

Import microerror.
Import service.

(** The three connection parameters, as [New] reads them from the settings
    store under the keys the flags name. *)
Definition address (f : flag.Flag) (v : viper.Viper) : string :=
  viper.GetString v (flag.Address (flag.Kubernetes_ (flag.Service_ f))).
Definition inCluster (f : flag.Flag) (v : viper.Viper) : bool :=
  viper.GetBool v (flag.InCluster (flag.Kubernetes_ (flag.Service_ f))).
Definition kubeConfigPath (f : flag.Flag) (v : viper.Viper) : string :=
  viper.GetString v (flag.KubeConfigPath (flag.Kubernetes_ (flag.Service_ f))).

(** The reads of the three connection parameters, in the order of [New]. *)
Definition strategy_reads {H} (f : flag.Flag) : list (Event H) :=
  [ViperGetString (flag.Address (flag.Kubernetes_ (flag.Service_ f)));
   ViperGetBool (flag.InCluster (flag.Kubernetes_ (flag.Service_ f)));
   ViperGetString (flag.KubeConfigPath (flag.Kubernetes_ (flag.Service_ f)))].

(** The reads of the provider parameters handed to the collector set. *)
Definition provider_reads {H} (f : flag.Flag) : list (Event H) :=
  [ViperGetString (flag.ControlPlaneResourceGroup (flag.Service_ f));
   ViperGetString (flag.Location (flag.Service_ f));
   ViperGetString (flag.SPTenantID (flag.Azure_ (flag.Service_ f)))].

(** The settings a run has read: its actions without the calls. *)
Definition settings_read {H} (t : list (Event H)) : list (Event H) :=
  List.filter (λ ev, negb (is_call ev)) t.

(** [New] returning [nil] and an [invalidConfigError] with text [msg]. *)
Definition invalid {H} (msg : string) : option (Service H) * option error :=
  (None, Some (Maskf invalidConfigError msg)).

(** The checks of [New] that come before the connection settings are read,
    the nil checks on [Flag] and [Viper] apart. *)
Definition fields_present {H} (config : Config H) : Prop :=
  Logger config ≠ None ∧ Description config ≠ "" ∧ GitCommit config ≠ "" ∧
  ProjectName config ≠ "" ∧ Source config ≠ "".

(** ** A concrete setting, for running the definitions.

    Handles are labels, the collaborators succeed, and the settings store is
    a list of key and value pairs with the zero value for a missing key. *)
Module example.
Definition handles : Handles := {|
  micrologger_Logger := unit;
  rest_Config := string;
  k8sclient_Clients := string;
  collector_Set := string;
  statusresource_CollectorSet := string;
  version_Service := string;
  versionbundle_Bundle := string;
  context_Context := nat;
|}.

Definition world : Collaborators handles :=
  Build_Collaborators handles
    (λ _, inr "rest") (λ _, inr "clients") (λ _, inr "operator")
    (λ _, inr "status") (λ _, inr "version") "bundle".

(** The same, with a collector package that rejects its configuration. *)
Definition world_rejecting_collectors : Collaborators handles :=
  Build_Collaborators handles
    (λ _, inr "rest") (λ _, inr "clients") (λ _, inl "invalid collector config")
    (λ _, inr "status") (λ _, inr "version") "bundle".

Definition flags : flag.Flag := {|
  flag.Service_ := {|
    flag.Azure_ := {| flag.SPTenantID := "service.azure.sptenantid" |};
    flag.ControlPlaneResourceGroup := "service.controlplaneresourcegroup";
    flag.Kubernetes_ := {|
      flag.Address := "service.kubernetes.address";
      flag.InCluster := "service.kubernetes.incluster";
      flag.KubeConfig := "service.kubernetes.kubeconfig";
      flag.KubeConfigPath := "service.kubernetes.kubeconfigpath";
      flag.TLS := {|
        flag.CAFile := "service.kubernetes.tls.cafile";
        flag.CrtFile := "service.kubernetes.tls.crtfile";
        flag.KeyFile := "service.kubernetes.tls.keyfile";
      |};
    |};
    flag.Location := "service.location";
  |};
|}.

Fixpoint get {A} (zero : A) (l : list (string * A)) (key : string) : A :=
  match l with
  | [] => zero
  | (k, x) :: l' => if String.eqb key k then x else get zero l' key
  end.

Definition settings (strings : list (string * string)) (bools : list (string * bool))
  : viper.Viper :=
  {| viper.GetString := get "" strings; viper.GetBool := get false bools |}.

Definition provider : list (string * string) :=
  [("service.controlplaneresourcegroup", "rg1");
   ("service.location", "westeurope");
   ("service.azure.sptenantid", "t1")].

Definition config (logger : option unit) (v : option viper.Viper) (version : string)
  : Config handles :=
  Build_Config handles logger (Some flags) v "d" "abc123" "collector" "src" version.

(** In-cluster discovery only, all identity fields set. *)
Definition in_cluster : Config handles :=
  config (Some ()) (Some (settings provider [("service.kubernetes.incluster", true)])) "1.0".

(** A kubeconfig path only. *)
Definition kubeconfig_settings : viper.Viper :=
  settings (("service.kubernetes.kubeconfigpath", "/etc/kube/config") :: provider) [].

Definition kubeconfig_only (version : string) : Config handles :=
  config (Some ()) (Some kubeconfig_settings) version.

(** No connection parameter at all. *)
Definition no_strategy : Config handles :=
  config (Some ()) (Some (settings provider [])) "1.0".

(** An address and in-cluster discovery together. *)
Definition two_settings : viper.Viper :=
  settings (("service.kubernetes.address", "https://10.0.0.1") :: provider)
    [("service.kubernetes.incluster", true)].

Definition two_strategies : Config handles :=
  config (Some ()) (Some two_settings) "1.0".

(** The service [New] builds from [in_cluster] with [world]. *)
Definition service : Service handles :=
  Build_Service handles "version" sync.zero "operator" "status".
End example.

(** ** The boot guard *)

(** The control points between [o.m.Lock()] and [o.m.Unlock()]. *)
Definition holds_lock (pt : Point) : bool :=
  match pt with
  | AtCheck | AtGoOperator | AtGoStatus | AtStore | AtUnlock => true
  | AtDo | AtLock | Returned => false
  end.

(** The steps a caller has left on its longest path. *)
Definition steps_left (pt : Point) : nat :=
  match pt with
  | AtDo => 7
  | AtLock => 6
  | AtCheck => 5
  | AtGoOperator => 4
  | AtGoStatus => 3
  | AtStore => 2
  | AtUnlock => 1
  | Returned => 0
  end.

Definition weight {H} (σ : System H) : nat :=
  sum_list_with (λ c, steps_left (point c)) (callers σ).

Section Invariant.
Context {H : Handles} (s : Service H) (ctxs : list (context_Context H)).

(** What a caller standing at a control point knows about the memory. *)
Definition local_ok (p : Process H) (c : Caller H) : Prop :=
  match point c with
  | AtGoOperator =>
      sync.done (bootOnce (svc p)) = false ∧ goroutines p = []
  | AtGoStatus =>
      sync.done (bootOnce (svc p)) = false
      ∧ goroutines p = [operatorCollector_Boot (operatorCollector s) (ctx c)]
  | AtStore =>
      sync.done (bootOnce (svc p)) = false ∧ goroutines p = started s (ctx c)
  | AtUnlock | Returned => sync.done (bootOnce (svc p)) = true
  | AtDo | AtLock | AtCheck => True
  end.

(** The invariant of the callers of [Boot] on the service [s]. *)
Record boot_inv (σ : System H) : Prop := {
  inv_ctxs : ctx <$> callers σ = ctxs;
  inv_operator : operatorCollector (svc (proc σ)) = operatorCollector s;
  inv_status : statusResourceCollector (svc (proc σ)) = statusResourceCollector s;
  inv_version : Version_ (svc (proc σ)) = Version_ s;
  inv_locked :
    sync.m (bootOnce (svc (proc σ))) = true →
    ∃ i c, callers σ !! i = Some c ∧ holds_lock (point c) = true;
  inv_holder :
    ∀ i c, callers σ !! i = Some c → holds_lock (point c) = true →
      sync.m (bootOnce (svc (proc σ))) = true;
  inv_excl :
    ∀ i j ci cj, callers σ !! i = Some ci → callers σ !! j = Some cj →
      holds_lock (point ci) = true → holds_lock (point cj) = true → i = j;
  inv_local : ∀ i c, callers σ !! i = Some c → local_ok (proc σ) c;
  inv_done :
    sync.done (bootOnce (svc (proc σ))) = true →
    ∃ c, c ∈ ctxs ∧ goroutines (proc σ) = started s c;
  inv_idle :
    sync.done (bootOnce (svc (proc σ))) = false →
    (∀ i c, callers σ !! i = Some c → point c ≠ AtGoStatus ∧ point c ≠ AtStore) →
    goroutines (proc σ) = [];
}.
End Invariant.

(** ** The construction pipeline *)

(** The reads of the six settings of the REST descriptor, in the order of
    [buildK8sRestConfig]. *)
Definition descriptor_reads {H} (f : flag.Flag) : list (Event H) :=
  [ViperGetString (flag.Address (flag.Kubernetes_ (flag.Service_ f)));
   ViperGetBool (flag.InCluster (flag.Kubernetes_ (flag.Service_ f)));
   ViperGetString (flag.KubeConfig (flag.Kubernetes_ (flag.Service_ f)));
   ViperGetString (flag.CAFile (flag.TLS (flag.Kubernetes_ (flag.Service_ f))));
   ViperGetString (flag.CrtFile (flag.TLS (flag.Kubernetes_ (flag.Service_ f))));
   ViperGetString (flag.KeyFile (flag.TLS (flag.Kubernetes_ (flag.Service_ f))))].

(** The descriptor request [buildK8sRestConfig] hands to
    [k8srestconfig.New]. *)
Definition rest_request {H} (config : Config H) (f : flag.Flag) (v : viper.Viper)
  : k8srestconfig.Config H :=
  {| k8srestconfig.Logger := Logger config;
     k8srestconfig.Address := address f v;
     k8srestconfig.InCluster := inCluster f v;
     k8srestconfig.KubeConfig :=
       viper.GetString v (flag.KubeConfig (flag.Kubernetes_ (flag.Service_ f)));
     k8srestconfig.TLS :=
       {| k8srestconfig.CAFile :=
            viper.GetString v (flag.CAFile (flag.TLS (flag.Kubernetes_ (flag.Service_ f))));
          k8srestconfig.CrtFile :=
            viper.GetString v (flag.CrtFile (flag.TLS (flag.Kubernetes_ (flag.Service_ f))));
          k8srestconfig.KeyFile :=
            viper.GetString v (flag.KeyFile (flag.TLS (flag.Kubernetes_ (flag.Service_ f))))
       |} |}.

(** Exactly one of the three connection parameters is defined. *)
Definition exactly_one (a : string) (b : bool) (k : string) : Prop :=
  (a ≠ "" ∧ b = false ∧ k = "") ∨ (a = "" ∧ b = true ∧ k = "")
  ∨ (a = "" ∧ b = false ∧ k ≠ "").

(** The calls of a run, in order. *)
Definition calls {H} (t : list (Event H)) : list (Event H) := List.filter is_call t.

(** The place of a call in the pipeline of [New]; reads have none. *)
Definition stage {H} (ev : Event H) : nat :=
  match ev with
  | ViperGetString _ | ViperGetBool _ => 0
  | K8sRestConfigNew _ => 1
  | K8sClientNewClients _ => 2
  | CollectorNewSet _ => 3
  | StatusResourceNewCollectorSet _ => 4
  | VersionNew _ => 5
  end.

(** The error a call ends in, if it fails. *)
Definition failure {H} (W : Collaborators H) (ev : Event H) : option string :=
  match ev with
  | ViperGetString _ | ViperGetBool _ => None
  | K8sRestConfigNew c =>
      match k8srestconfig_New W c with inl err => Some err | inr _ => None end
  | K8sClientNewClients c =>
      match k8sclient_NewClients W c with inl err => Some err | inr _ => None end
  | CollectorNewSet c =>
      match collector_NewSet W c with inl err => Some err | inr _ => None end
  | StatusResourceNewCollectorSet c =>
      match statusresource_NewCollectorSet W c with inl err => Some err | inr _ => None end
  | VersionNew c =>
      match version_New W c with inl err => Some err | inr _ => None end
  end.

(** The error [New] returns for the failure [err] of the call [ev]: the
    error of [k8srestconfig.New] is masked by [buildK8sRestConfig] and again
    by [New], the others once. *)
Definition masked {H} (ev : Event H) (err : string) : error :=
  match ev with
  | K8sRestConfigNew _ => Mask (Mask (Foreign err))
  | _ => Mask (Foreign err)
  end.

(** The texts of the [invalidConfigError]s of [New], in source order. *)
Definition invalid_texts : list string :=
  [Sprintf_T ".Logger must not be empty";
   Sprintf_T ".Flag must not be empty";
   Sprintf_T ".Viper must not be empty";
   Sprintf_T ".Description must not be empty";
   Sprintf_T ".GitCommit must not be empty";
   Sprintf_T ".ProjectName must not be empty";
   Sprintf_T ".Source must not be empty";
   "address or inCluster or kubeConfigPath must be defined";
   "address and inCluster and kubeConfigPath must not be defined at the same time"].

(** ** More concrete settings *)

(** The project name left empty, everything else in place. *)
Definition example_without_project_name : Config example.handles :=
  Build_Config example.handles (Some ()) (Some example.flags)
    (Some example.kubeconfig_settings) "d" "abc123" "" "src" "1.0".

(** The settings of [example.in_cluster]. *)
Definition example_in_cluster_settings : viper.Viper :=
  example.settings example.provider [("service.kubernetes.incluster", true)].

(** Two callers of [Boot] on [example.service], after the first of them, run
    alone, has returned. *)
Definition example_first_returned : System example.handles :=
  {| callers := [Build_Caller example.handles Returned 1;
                 Build_Caller example.handles AtDo 2];
     proc := Boot (H := example.handles) 1 (constructed example.service) |}.

(** * Proof tools *)

(** The checks of [New] on the handles and the identity fields, in source
    order; the first goal left is the one where all of them pass. *)
Ltac New_fields config :=
  let lg := fresh "lg" in let fl := fresh "fl" in let vp := fresh "vp" in
  let d := fresh "d" in let g := fresh "g" in let pn := fresh "pn" in
  let s := fresh "s" in let ver := fresh "ver" in
  destruct config as [lg fl vp d g pn s ver];
  unfold New, value, trace, fields_present, address, inCluster, kubeConfigPath; cbn;
  destruct lg, fl, vp; cbn;
  [destruct (String.eqb_spec d ""); cbn;
    [|destruct (String.eqb_spec g ""); cbn;
      [|destruct (String.eqb_spec pn ""); cbn;
        [|destruct (String.eqb_spec s ""); cbn]]] | .. ].

(** The three connection parameters and their count. *)
Ltac New_strategy :=
  unfold GetString, GetBool, count_defined; cbn;
  match goal with
  | |- context [String.eqb (viper.GetString ?v (flag.Address ?k)) ""] =>
      destruct (String.eqb_spec (viper.GetString v (flag.Address k)) "")
  end;
  (match goal with
   | |- context [viper.GetBool ?v (flag.InCluster ?k)] =>
       destruct (viper.GetBool v (flag.InCluster k)) eqn:?
   end);
  (match goal with
   | |- context [String.eqb (viper.GetString ?v (flag.KubeConfigPath ?k)) ""] =>
       destruct (String.eqb_spec (viper.GetString v (flag.KubeConfigPath k)) "")
   end); cbn.

(** Reduction of the binds of a run, leaving the rest of the term alone. *)
Ltac red_run :=
  lazy beta iota zeta delta [mbind mret Run_bind Run_ret fst snd app].

(** The results of the collaborators, in the order they are called. *)
Ltac New_call :=
  match goal with
  | |- context [k8srestconfig_New ?w ?c] => destruct (k8srestconfig_New w c) eqn:?
  | |- context [k8sclient_NewClients ?w ?c] => destruct (k8sclient_NewClients w c) eqn:?
  | |- context [collector_NewSet ?w ?c] => destruct (collector_NewSet w c) eqn:?
  | |- context [statusresource_NewCollectorSet ?w ?c] =>
      destruct (statusresource_NewCollectorSet w c) eqn:?
  | |- context [version_New ?w ?c] => destruct (version_New w c) eqn:?
  end.

Ltac New_calls :=
  unfold buildK8sRestConfig, GetString, GetBool, call; red_run;
  repeat (New_call; red_run).

(** Membership in an explicit list of actions. *)
Ltac in_trace :=
  repeat match goal with
  | M : _ ∈ [] |- _ => by apply elem_of_nil in M
  | M : _ ∈ _ :: _ |- _ => apply elem_of_cons in M as [M|M]
  end.

(** * Construction *)

Section Construction.
Context {H : Handles} (W : Collaborators H).

(** [New] never stops in a panic: it returns. *)
Lemma New_returns (config : Config H) :
  ∃ r, value (New W config) = Some r.
Proof.
  New_fields config; eauto.
  New_strategy; eauto.
  all: New_calls; eauto.
Qed.

(** Whatever [New] returns, it is either a service and no error, or no
    service and an error. *)
Lemma New_handle_xor_error (config : Config H) s e :
  value (New W config) = Some (s, e) → (s = None ↔ e ≠ None).
Proof.
  New_fields config; try (intros; simplify_eq; done).
  New_strategy; try (intros; simplify_eq; done).
  all: New_calls; intros; simplify_eq; done.
Qed.

(** C10 — [New] requires the logger, the flags and the settings store: a
    nil [Logger], then a nil [Flag], then a nil [Viper] makes [New] return
    [nil] and an [invalidConfigError] naming the handle.  The three checks
    come first: whatever the identity fields are, nothing has been read or
    called when [New] returns. *)
Theorem New_requires_handles (config : Config H) :
  (Logger config = None →
     New W config = ([], Some (invalid "service.Config.Logger must not be empty")))
  ∧ (Logger config ≠ None → Flag config = None →
     New W config = ([], Some (invalid "service.Config.Flag must not be empty")))
  ∧ (Logger config ≠ None → Flag config ≠ None → Viper config = None →
     New W config = ([], Some (invalid "service.Config.Viper must not be empty"))).
Proof.
  destruct config as [lg fl vp d g pn s ver]; cbn.
  split; [|split].
  - intros ->. reflexivity.
  - intros Hl ->. destruct lg; [reflexivity | congruence].
  - intros Hl Hf ->. destruct lg; [|congruence]. destruct fl; [reflexivity | congruence].
Qed.

(** C1 — with none of address, in-cluster flag and kubeconfig path defined,
    [New] returns no service and an [invalidConfigError], and has called
    no collaborator.  When the checks on the fields pass, the error is the
    one of the count being zero, returned right after the three reads. *)
Theorem New_no_connection_parameter (config : Config H) f v :
  Flag config = Some f → Viper config = Some v →
  address f v = "" → inCluster f v = false → kubeConfigPath f v = "" →
  ∃ msg,
    value (New W config) = Some (invalid msg)
    ∧ Forall (λ ev, is_call ev = false) (trace (New W config))
    ∧ (fields_present config →
       trace (New W config) = strategy_reads f
       ∧ msg = "address or inCluster or kubeConfigPath must be defined").
Proof.
  New_fields config; intros; simplify_eq.
  1-4: eexists; split; [reflexivity|]; split; [constructor|]; intros; intuition congruence.
  2: eexists; split; [reflexivity|]; split; [constructor|]; intros; intuition congruence.
  New_strategy; try congruence.
  eexists; split; [reflexivity|]; split; [repeat constructor|]. done.
Qed.

(** C2 — with two or more of address, in-cluster flag and kubeconfig path
    defined, [New] returns no service and an [invalidConfigError], and has
    called no collaborator.  When the checks on the fields pass, the error
    is the one of the count exceeding one, returned right after the three
    reads. *)
Theorem New_several_connection_parameters (config : Config H) f v :
  Flag config = Some f → Viper config = Some v →
  (address f v ≠ "" ∧ inCluster f v = true)
  ∨ (address f v ≠ "" ∧ kubeConfigPath f v ≠ "")
  ∨ (inCluster f v = true ∧ kubeConfigPath f v ≠ "") →
  ∃ msg,
    value (New W config) = Some (invalid msg)
    ∧ Forall (λ ev, is_call ev = false) (trace (New W config))
    ∧ (fields_present config →
       trace (New W config) = strategy_reads f
       ∧ msg = "address and inCluster and kubeConfigPath must not be defined at the same time").
Proof.
  New_fields config; intros; simplify_eq.
  1-4: eexists; split; [reflexivity|]; split; [constructor|]; intros; intuition congruence.
  2: eexists; split; [reflexivity|]; split; [constructor|]; intros; intuition congruence.
  New_strategy; try (exfalso; intuition congruence).
  all: eexists; split; [reflexivity|]; split; [repeat constructor|]; done.
Qed.
(** With the handles present, [buildK8sRestConfig] reads the six settings
    of the descriptor, the TLS file paths among them, and ends in the call
    that builds it. *)
Lemma buildK8sRestConfig_trace (config : Config H) f v :
  Flag config = Some f → Viper config = Some v →
  ∃ c, trace (buildK8sRestConfig W config) =
    [ViperGetString (flag.Address (flag.Kubernetes_ (flag.Service_ f)));
     ViperGetBool (flag.InCluster (flag.Kubernetes_ (flag.Service_ f)));
     ViperGetString (flag.KubeConfig (flag.Kubernetes_ (flag.Service_ f)));
     ViperGetString (flag.CAFile (flag.TLS (flag.Kubernetes_ (flag.Service_ f))));
     ViperGetString (flag.CrtFile (flag.TLS (flag.Kubernetes_ (flag.Service_ f))));
     ViperGetString (flag.KeyFile (flag.TLS (flag.Kubernetes_ (flag.Service_ f))));
     K8sRestConfigNew c].
Proof.
  destruct config as [lg fl vp d g pn s ver]; cbn. intros -> ->.
  unfold buildK8sRestConfig, GetString, GetBool, call, trace; cbn.
  destruct (k8srestconfig_New _ _); cbn; eauto.
Qed.

(** The four identity fields [New] checks, in source order: an empty one
    makes [New] return an [invalidConfigError] naming it, with nothing
    read or called. *)
Lemma New_requires_identity_fields (config : Config H) :
  Logger config ≠ None → Flag config ≠ None → Viper config ≠ None →
  (Description config = "" →
     New W config = ([], Some (invalid "service.Config.Description must not be empty")))
  ∧ (Description config ≠ "" → GitCommit config = "" →
     New W config = ([], Some (invalid "service.Config.GitCommit must not be empty")))
  ∧ (Description config ≠ "" → GitCommit config ≠ "" → ProjectName config = "" →
     New W config = ([], Some (invalid "service.Config.ProjectName must not be empty")))
  ∧ (Description config ≠ "" → GitCommit config ≠ "" → ProjectName config ≠ "" →
     Source config = "" →
     New W config = ([], Some (invalid "service.Config.Source must not be empty"))).
Proof.
  destruct config as [lg fl vp d g pn s ver]; cbn. intros Hl Hf Hv.
  destruct lg, fl, vp; try congruence. unfold New; cbn.
  destruct (String.eqb_spec d ""), (String.eqb_spec g ""),
    (String.eqb_spec pn ""), (String.eqb_spec s ""); cbn;
    repeat split; intros; congruence.
Qed.

(** C7 — the count of defined connection parameters is checked before any
    collaborator is called.  When the count is not one, [New] returns an
    [invalidConfigError] and its run holds no call: no REST descriptor was
    built, no client made.  Conversely a run that holds a call starts with
    the three reads the count is taken from, the count is one, and the
    call comes after them. *)
Theorem New_validates_strategy_first (config : Config H) :
  (∀ f v, Flag config = Some f → Viper config = Some v →
     count_defined (address f v) (inCluster f v) (kubeConfigPath f v) ≠ 1 →
     (∃ msg, value (New W config) = Some (invalid msg))
     ∧ Forall (λ ev, is_call ev = false) (trace (New W config)))
  ∧ (∀ ev, ev ∈ trace (New W config) → is_call ev = true →
     ∃ f v tl, Flag config = Some f ∧ Viper config = Some v
       ∧ count_defined (address f v) (inCluster f v) (kubeConfigPath f v) = 1
       ∧ trace (New W config) = strategy_reads f ++ tl ∧ ev ∈ tl).
Proof.
  New_fields config.
  1-4, 6-12: split;
    [intros ? ? ? ? ?; first [discriminate | split; [eauto | apply Forall_nil_2]]
    | intros ev M; in_trace].
  split.
  - intros f0 v0 ? ?; simplify_eq. New_strategy.
    1, 4, 7: intros Hc; by destruct Hc.
    all: intros _; split; [eauto | repeat constructor].
  - intros ev. New_strategy.
    2-3, 5-6, 8: intros M C; in_trace; subst; discriminate.
    all: New_calls; intros M C; exists f, v; eexists.
    all: split; [reflexivity|]; split; [reflexivity|].
    all: split;
      [unfold count_defined;
       repeat match goal with
       | E : viper.GetString _ _ = "" |- _ => rewrite E
       | E : viper.GetBool _ _ = _ |- _ => rewrite E
       | N : ?x ≠ "" |- context [String.eqb ?x ""] =>
           destruct (String.eqb_spec x ""); [done|]
       end; reflexivity|].
    all: split; [reflexivity|].
    all: do 3 (apply elem_of_cons in M as [->|M]; [discriminate|]); exact M.
Qed.
(** C4 — with the kubeconfig path as the only defined connection
    parameter, no REST descriptor is built, whatever the rest of the
    configuration is: the run holds no call of [k8srestconfig.New], and the
    settings it reads are at most the three connection parameters and then
    the three provider parameters, never those of [buildK8sRestConfig] (the
    TLS file paths among them).  When the checks on the fields pass, the
    client factory is called right after the three reads, with the path as
    read and a nil REST descriptor.  In every run, whatever the
    configuration, the client factory gets either a path or a descriptor,
    never both. *)
Theorem New_kubeconfig_only (config : Config H) :
  (∀ f v, Flag config = Some f → Viper config = Some v →
     address f v = "" → inCluster f v = false → kubeConfigPath f v ≠ "" →
     Forall (λ ev, is_rest_build ev = false) (trace (New W config))
     ∧ settings_read (trace (New W config))
         `prefix_of` strategy_reads f ++ provider_reads f
     ∧ (fields_present config →
        ∃ tl, trace (New W config) =
          strategy_reads f ++
          K8sClientNewClients {|
            k8sclient.Logger := Logger config;
            k8sclient.SchemeBuilder :=
              [k8sclient.v1alpha1_AddToScheme; k8sclient.capiv1alpha3_AddToScheme];
            k8sclient.KubeConfigPath := kubeConfigPath f v;
            k8sclient.RestConfig := None |} :: tl))
  ∧ (∀ c, K8sClientNewClients c ∈ trace (New W config) →
       (k8sclient.KubeConfigPath c = "" ∧ k8sclient.RestConfig c ≠ None)
       ∨ (k8sclient.KubeConfigPath c ≠ "" ∧ k8sclient.RestConfig c = None)).
Proof.
  New_fields config.
  1-4, 6-12: split;
    [intros ? ? ? ? ? ? ?;
     first [discriminate
           | split; [constructor|]; split; [apply prefix_nil|];
             intros FP; exfalso; intuition congruence]
    | intros ev M; in_trace].
  split.
  - intros f0 v0 ? ?; simplify_eq. New_strategy; try (intros; congruence).
    intros _ _ _. New_calls.
    all: split; [repeat constructor|]; split;
      [unfold settings_read; cbn; eexists; reflexivity | intros _; eexists; reflexivity].
  - intros c. New_strategy.
    2-3, 5-6, 8: intros M; in_trace; discriminate.
    all: New_calls; intros M; in_trace; simplify_eq; cbn; eauto.
Qed.

(** A service [New] returns comes without an error, with the boot guard
    unused, and holds the two collector sets the collaborators built. *)
Lemma New_service (config : Config H) s e :
  value (New W config) = Some (Some s, e) →
  e = None ∧ bootOnce s = sync.zero
  ∧ ∃ c1 c2,
      CollectorNewSet c1 ∈ trace (New W config)
      ∧ collector_NewSet W c1 = inr (operatorCollector s)
      ∧ StatusResourceNewCollectorSet c2 ∈ trace (New W config)
      ∧ statusresource_NewCollectorSet W c2 = inr (statusResourceCollector s).
Proof.
  revert s e. New_fields config; try (intros; simplify_eq; fail).
  intros s0 e0. New_strategy; try (intros; simplify_eq; fail).
  all: New_calls; intros E; simplify_eq; cbn.
  all: split; [reflexivity|]; split; [reflexivity|]; do 2 eexists.
  all: split; [|split; [eassumption|split; [|eassumption]]].
  all: repeat first [apply list_elem_of_here | apply list_elem_of_further].
Qed.

(** C6 — assembly is all or nothing.  When the construction of the
    infrastructure collector set fails, or that of the status collector
    set, [New] returns that error and a nil service.  [New] returns either
    a service or an error, never both and never neither; and a service it
    returns holds the two collector sets the collaborators built, with
    the boot guard unused. *)
Theorem New_all_or_nothing (config : Config H) :
  (∀ c err, CollectorNewSet c ∈ trace (New W config) →
     collector_NewSet W c = inl err →
     value (New W config) = Some (None, Some (Mask (Foreign err))))
  ∧ (∀ c err, StatusResourceNewCollectorSet c ∈ trace (New W config) →
     statusresource_NewCollectorSet W c = inl err →
     value (New W config) = Some (None, Some (Mask (Foreign err))))
  ∧ (∃ s e, value (New W config) = Some (s, e) ∧ (s = None ↔ e ≠ None))
  ∧ (∀ s e, value (New W config) = Some (Some s, e) →
     e = None ∧ bootOnce s = sync.zero
     ∧ ∃ c1 c2,
         CollectorNewSet c1 ∈ trace (New W config)
         ∧ collector_NewSet W c1 = inr (operatorCollector s)
         ∧ StatusResourceNewCollectorSet c2 ∈ trace (New W config)
         ∧ statusresource_NewCollectorSet W c2 = inr (statusResourceCollector s)).
Proof.
  split; [|split; [|split]].
  - New_fields config; try (intros c err M; in_trace; fail).
    intros c err. New_strategy; try (intros M; in_trace; discriminate).
    all: New_calls; intros M E; in_trace; simplify_eq; congruence.
  - New_fields config; try (intros c err M; in_trace; fail).
    intros c err. New_strategy; try (intros M; in_trace; discriminate).
    all: New_calls; intros M E; in_trace; simplify_eq; congruence.
  - destruct (New_returns config) as [[s e] E]. exists s, e.
    split; [exact E | by apply (New_handle_xor_error config)].
  - apply New_service.
Qed.
End Construction.

(** * Boot *)

Section Lifecycle.
Context {H : Handles}.

(** The first call on a fresh service runs the start sequence and returns:
    both run loops are started with the caller's context, in source order,
    and the guard is set. *)
Lemma Boot_first (s : Service H) (c : context_Context H) :
  bootOnce s = sync.zero →
  run_Boot 7 {| point := AtDo; ctx := c |} (constructed s) =
    ({| point := Returned; ctx := c |},
     {| svc := {| Version_ := Version_ s;
                  bootOnce := {| sync.done := true; sync.m := false |};
                  operatorCollector := operatorCollector s;
                  statusResourceCollector := statusResourceCollector s |};
        goroutines := started s c |}).
Proof. destruct s as [vs o oc sc]; cbn. intros ->. reflexivity. Qed.

(** A call that finds the guard set returns at once and changes nothing. *)
Lemma Boot_again (p : Process H) (c : context_Context H) :
  sync.done (bootOnce (svc p)) = true →
  run_Boot 7 {| point := AtDo; ctx := c |} p = ({| point := Returned; ctx := c |}, p).
Proof. intros E. cbn. unfold Boot_step; cbn. rewrite E. reflexivity. Qed.

Lemma Boot_again_id (p : Process H) (c : context_Context H) :
  sync.done (bootOnce (svc p)) = true → Boot c p = p.
Proof. intros E. unfold Boot. by rewrite Boot_again. Qed.

Lemma Boot_first_done (s : Service H) (c : context_Context H) :
  bootOnce s = sync.zero →
  sync.done (bootOnce (svc (Boot c (constructed s)))) = true
  ∧ goroutines (Boot c (constructed s)) = started s c.
Proof. intros E. unfold Boot. by rewrite Boot_first. Qed.

(** Calls after the first, one after the other, change nothing. *)
Lemma Boot_repeated (p : Process H) (cs : list (context_Context H)) :
  sync.done (bootOnce (svc p)) = true →
  foldl (λ p c, Boot (H := H) c p) p cs = p.
Proof.
  intros E. induction cs as [|c cs IH]; [done|].
  cbn. by rewrite Boot_again_id.
Qed.
End Lifecycle.

(** * The boot guard under concurrent callers *)

(** A lookup in the callers after one of them moved. *)
Ltac moved :=
  repeat match goal with
  | L : <[_:=_]> _ !! _ = Some _ |- _ =>
      apply list_lookup_insert_Some in L as [(-> & <- & ?) | (? & L)]
  end.

Section Guard.
Context {H : Handles} (s : Service H) (ctxs : list (context_Context H)).

Lemma boot_inv_init :
  bootOnce s = sync.zero → boot_inv s ctxs (boot_calls s ctxs).
Proof.
  intros Z.
  assert (P : ∀ i c, callers (boot_calls s ctxs) !! i = Some c → point c = AtDo).
  { cbn. intros i c L. rewrite list_lookup_fmap in L.
    destruct (ctxs !! i); simplify_eq/=. done. }
  split; cbn; rewrite ?Z; cbn; try done.
  - rewrite <- list_fmap_compose. rewrite <- (list_fmap_id ctxs) at 2.
    by apply list_fmap_ext.
  - intros i c L E. apply P in L. rewrite L in E. done.
  - intros i j ci cj L _ E. apply P in L. rewrite L in E. done.
  - intros i c L. apply P in L. unfold local_ok. by rewrite L.
Qed.

Lemma boot_inv_step σ σ' :
  boot_inv s ctxs σ → step σ σ' → boot_inv s ctxs σ'.
Proof.
  intros I St. inversion St as [? i c c' p' Li Bs]; subst. clear St.
  destruct σ as [cs p], c as [pt cx], p as [sv gs], sv as [vs [dn mx] oc sc], I.
  unfold Boot_step, local_ok in *; cbn in *.
  assert (Hlen : i < length cs) by (by eapply lookup_lt_Some).
  assert (Hctx : ctx <$> <[i:={| point := point c'; ctx := cx |}]> cs = ctxs).
  { rewrite list_fmap_insert. rewrite list_insert_id; [done|].
    rewrite list_lookup_fmap, Li. done. }
  pose proof (inv_local0 i _ Li) as Lold; cbn in Lold.
  assert (Hnew : ∀ c', <[i:=c']> cs !! i = Some c')
    by (intros; by apply list_lookup_insert_eq).
  assert (Hother : ∀ c' j cj, <[i:=c']> cs !! j = Some cj → j ≠ i → cs !! j = Some cj)
    by (intros ? ? ? L ?; by rewrite list_lookup_insert_ne in L).
  assert (Hin : cx ∈ ctx <$> cs).
  { apply list_elem_of_fmap. eexists; split; [|by eapply list_elem_of_lookup_2]. done. }
  destruct pt; repeat case_match; destruct_and?; simplify_eq; cbn in *.
  all: split; cbn; try done.
  all: unfold local_ok, move; cbn.
  (* inv_locked *)
  all: try (intros _; exists i; eexists; split; [apply Hnew | done]).
  all: try (intros E; destruct (inv_locked0 E) as (j & cj & Lj & Hj); exists j, cj;
            split; [|done]; rewrite list_lookup_insert_ne; [done|];
            intros ->; by simplify_eq).
  (* inv_holder, inv_excl *)
  all: try (intros; moved; cbn in *; try done; destruct_and?; eauto; fail).
  (* inv_idle *)
  all: try (intros E A; apply inv_idle0; [done|]; intros j cj Lj;
            destruct (decide (j = i)) as [->|N];
            [by simplify_eq | apply (A j cj); by rewrite list_lookup_insert_ne]).
  all: try (intros _ A; specialize (A i _ (Hnew _)); cbn in A; by destruct A).
  (* inv_done *)
  all: try (intros _; by exists cx).
  (* inv_local *)
  all: intros j cj L; destruct (decide (j = i)) as [->|N];
    [rewrite Hnew in L; simplify_eq; cbn
    |apply Hother in L; [|done]; pose proof (inv_local0 j cj L) as Lj].
  all: try done.
  all: try (destruct_and?; subst; done).
  - split; [done|]. apply inv_idle0; [done|]. intros j cj Lj.
    destruct (decide (j = i)) as [->|N]; [by simplify_eq|].
    split; intros E; apply N; eapply (inv_excl0 j i); eauto; by rewrite E.
  - assert (holds_lock (point cj) = false) as NH.
    { destruct (holds_lock (point cj)) eqn:E; [|done].
      exfalso; apply N; by eapply (inv_excl0 j i). }
    destruct (point cj); cbn in *; done.
  - assert (holds_lock (point cj) = false) as NH.
    { destruct (holds_lock (point cj)) eqn:E; [|done].
      exfalso; apply N; by eapply (inv_excl0 j i). }
    destruct (point cj); cbn in *; done.
  - assert (holds_lock (point cj) = false) as NH.
    { destruct (holds_lock (point cj)) eqn:E; [|done].
      exfalso; apply N; by eapply (inv_excl0 j i). }
    destruct (point cj); cbn in *; done.
Qed.
Lemma boot_inv_reachable σ :
  bootOnce s = sync.zero → rtc step (boot_calls s ctxs) σ → boot_inv s ctxs σ.
Proof.
  intros Z R. revert σ R. apply (rtc_ind_r (R := step) (boot_inv s ctxs)).
  - by apply boot_inv_init.
  - intros ? ? _ ? ?. by eapply boot_inv_step.
Qed.

(** Every control point that holds the mutex can move. *)
Lemma holder_moves (c : Caller H) (p : Process H) :
  holds_lock (point c) = true → is_Some (Boot_step c p).
Proof.
  unfold Boot_step. destruct (point c); cbn; try done; intros _;
    repeat case_match; eauto.
Qed.

(** No deadlock: while a caller has not returned, some caller can move. *)
Lemma boot_progress σ :
  boot_inv s ctxs σ → ¬ all_returned σ → ∃ σ', step σ σ'.
Proof.
  intros I N.
  destruct (sync.m (bootOnce (svc (proc σ)))) eqn:M.
  - destruct (inv_locked _ _ _ I M) as (i & c & L & Hc).
    destruct (holder_moves c (proc σ) Hc) as [[c' p'] E].
    eexists. by eapply step_caller.
  - apply not_Forall_Exists in N; [|intros c; apply _].
    apply Exists_exists in N as (c & Hin & Hc). cbn in Hc.
    apply list_elem_of_lookup_1 in Hin as [i L].
    assert (holds_lock (point c) = false) as NH.
    { destruct (holds_lock (point c)) eqn:E; [|done].
      pose proof (inv_holder _ _ _ I i c L E). congruence. }
    assert (is_Some (Boot_step c (proc σ))) as [[c' p'] E].
    { unfold Boot_step. destruct (point c); cbn in *; try done;
        rewrite ?M; repeat case_match; eauto. }
    eexists. by eapply step_caller.
Qed.

(** At most once: the goroutines started so far are a prefix of one start
    sequence. *)
Lemma boot_at_most_once σ :
  ctxs ≠ [] → boot_inv s ctxs σ →
  ∃ c, c ∈ ctxs ∧ goroutines (proc σ) `prefix_of` started s c.
Proof.
  intros NE I.
  destruct (sync.done (bootOnce (svc (proc σ)))) eqn:D.
  { destruct (inv_done _ _ _ I D) as (c & ? & ->). by exists c. }
  destruct (decide (Exists (λ c, point c = AtGoStatus ∨ point c = AtStore) (callers σ)))
    as [E|E].
  - apply Exists_exists in E as (c & Hin & Hc).
    apply list_elem_of_lookup_1 in Hin as [i L].
    pose proof (inv_local _ _ _ I i c L) as Lc. unfold local_ok in Lc.
    exists (ctx c). split.
    { rewrite <- (inv_ctxs _ _ _ I). apply list_elem_of_fmap_2.
      by eapply list_elem_of_lookup_2. }
    destruct Hc as [Hc|Hc]; rewrite Hc in Lc; destruct Lc as [_ ->].
    + by exists [statusResourceCollector_Boot (statusResourceCollector s) (ctx c)].
    + done.
  - destruct ctxs as [|c0 ?]; [done|]. exists c0. split; [left|].
    rewrite (inv_idle _ _ _ I D); [apply prefix_nil|].
    intros i c L. split; intros Hc; apply E, Exists_exists; exists c;
      (split; [by eapply list_elem_of_lookup_2 | by rewrite Hc; eauto]).
Qed.

(** Exactly once: when all callers have returned, one start sequence has
    run in full. *)
Lemma boot_exactly_once σ :
  ctxs ≠ [] → boot_inv s ctxs σ → all_returned σ →
  ∃ c, c ∈ ctxs ∧ goroutines (proc σ) = started s c.
Proof.
  intros NE I A. apply (inv_done _ _ _ I).
  destruct (callers σ) as [|c l] eqn:C.
  { pose proof (inv_ctxs _ _ _ I) as X. rewrite C in X. by destruct ctxs. }
  pose proof (inv_local _ _ _ I 0 c) as Lc. rewrite C in Lc.
  specialize (Lc eq_refl). unfold all_returned in A. rewrite C in A.
  apply Forall_cons_1 in A as [Hc _]. unfold local_ok in Lc. by rewrite Hc in Lc.
Qed.

(** Once the guard is set, no step starts a goroutine or changes the
    service. *)
Lemma boot_step_after_done σ σ' :
  boot_inv s ctxs σ → sync.done (bootOnce (svc (proc σ))) = true → step σ σ' →
  sync.done (bootOnce (svc (proc σ'))) = true
  ∧ goroutines (proc σ') = goroutines (proc σ).
Proof.
  intros I D St. inversion St as [? i c c' p' Li Bs]; subst; cbn.
  pose proof (inv_local _ _ _ I i c Li) as Lc. unfold local_ok in Lc.
  unfold Boot_step in Bs.
  destruct (point c); repeat case_match; destruct_and?; simplify_eq; cbn; try done;
    congruence.
Qed.

Lemma boot_after_done σ σ' :
  bootOnce s = sync.zero → rtc step (boot_calls s ctxs) σ →
  sync.done (bootOnce (svc (proc σ))) = true → rtc step σ σ' →
  goroutines (proc σ') = goroutines (proc σ).
Proof.
  intros Z R D R'. apply boot_inv_reachable in R; [|done].
  induction R' as [|σ1 σ2 σ3 St R' IH]; [done|].
  destruct (boot_step_after_done _ _ R D St) as [D' G].
  rewrite <- G. apply IH; [by eapply boot_inv_step | done].
Qed.
End Guard.

Section Termination.
Context {H : Handles}.

Lemma Boot_step_decreases (c c' : Caller H) p p' :
  Boot_step c p = Some (c', p') → steps_left (point c') < steps_left (point c).
Proof.
  unfold Boot_step. destruct (point c); repeat case_match; intros;
    simplify_eq; cbn; lia.
Qed.

Lemma sum_list_with_insert {A} (f : A → nat) (l : list A) i x y :
  l !! i = Some x →
  sum_list_with f (<[i:=y]> l) + f x = sum_list_with f l + f y.
Proof.
  revert i. induction l as [|a l IH]; intros [|i] L; simplify_eq/=; [lia|].
  specialize (IH _ L). lia.
Qed.

(** Every step brings the callers closer to their return. *)
Lemma step_weight (σ σ' : System H) : step σ σ' → weight σ' < weight σ.
Proof.
  intros St. inversion St as [? i c c' p' Li Bs]; subst. unfold weight; cbn.
  pose proof (sum_list_with_insert (λ c, steps_left (point c)) _ _ _ c' Li).
  apply Boot_step_decreases in Bs. cbn in *. lia.
Qed.

Lemma nsteps_weight n (σ σ' : System H) :
  nsteps step n σ σ' → n + weight σ' ≤ weight σ.
Proof.
  induction 1 as [|n σ1 σ2 σ3 St _ IH]; [lia|].
  apply step_weight in St. lia.
Qed.

Lemma weight_boot_calls (s : Service H) ctxs :
  weight (boot_calls s ctxs) = 7 * length ctxs.
Proof.
  unfold weight; cbn. induction ctxs as [|c l IH]; cbn; [done|].
  cbn in IH. lia.
Qed.
End Termination.

(** * Boot of a constructed service *)

Section BootOfConstructed.
Context {H : Handles} (W : Collaborators H).

(** C8 — on a service [New] returned, the first call of [Boot] returns
    (seven steps suffice) having started exactly two goroutines: the run
    loop of the infrastructure collector set and that of the status
    collector set, in that order, each with the caller's context.  [Boot]
    yields no value and no error: its whole effect is the new memory, in
    which the service is the one constructed, with the guard set. *)
Theorem Boot_starts_both_collector_sets (config : Config H) s e c :
  value (New W config) = Some (Some s, e) →
  run_Boot 7 {| point := AtDo; ctx := c |} (constructed s) =
    ({| point := Returned; ctx := c |}, Boot c (constructed s))
  ∧ goroutines (Boot c (constructed s)) =
      [operatorCollector_Boot (operatorCollector s) c;
       statusResourceCollector_Boot (statusResourceCollector s) c]
  ∧ svc (Boot c (constructed s)) =
      {| Version_ := Version_ s;
         bootOnce := {| sync.done := true; sync.m := false |};
         operatorCollector := operatorCollector s;
         statusResourceCollector := statusResourceCollector s |}.
Proof.
  intros E. apply New_service in E as (_ & Z & _).
  unfold Boot. rewrite (Boot_first s c Z). done.
Qed.

(** C5 — [Boot] is idempotent on a service [New] returned.

    Called one after the other any number of times, the calls leave what
    the first call left: the two goroutines of one start sequence; a call
    that finds the guard set changes nothing.

    Called concurrently, in any interleaving of the callers' steps: the
    goroutines started so far always are a prefix of one start sequence
    (never more than one run); when all callers have returned they are
    exactly one start sequence; until then some caller can move (no
    deadlock) and every step brings the callers closer to their return,
    so all of them do return; and once the guard is set no later step
    starts a goroutine. *)
Theorem Boot_runs_start_sequence_once (config : Config H) s e c0 cs :
  value (New W config) = Some (Some s, e) →
  (foldl (λ p c, Boot (H := H) c p) (constructed s) (c0 :: cs) = Boot c0 (constructed s)
   ∧ goroutines (Boot c0 (constructed s)) = started s c0
   ∧ ∀ (p : Process H) c, sync.done (bootOnce (svc p)) = true → Boot c p = p)
  ∧ ∀ σ, rtc step (boot_calls s (c0 :: cs)) σ →
      (∃ c, c ∈ c0 :: cs ∧ goroutines (proc σ) `prefix_of` started s c)
      ∧ (all_returned σ → ∃ c, c ∈ c0 :: cs ∧ goroutines (proc σ) = started s c)
      ∧ (¬ all_returned σ → ∃ σ', step σ σ')
      ∧ (∀ σ', step σ σ' → weight σ' < weight σ)
      ∧ weight σ ≤ 7 * length (c0 :: cs)
      ∧ (sync.done (bootOnce (svc (proc σ))) = true →
         ∀ σ', rtc step σ σ' → goroutines (proc σ') = goroutines (proc σ)).
Proof.
  intros E. apply New_service in E as (_ & Z & _).
  split.
  - destruct (Boot_first_done s c0 Z) as [D G].
    split; [|split; [done|]].
    + cbn [foldl]. by apply Boot_repeated.
    + intros p c. apply Boot_again_id.
  - intros σ R.
    pose proof (boot_inv_reachable s (c0 :: cs) σ Z R) as I.
    split; [by apply boot_at_most_once|].
    split; [by apply boot_exactly_once|].
    split; [by eapply boot_progress|].
    split; [intros σ'; apply step_weight|].
    split.
    + apply rtc_nsteps_1 in R as [n R]. apply nsteps_weight in R.
      rewrite weight_boot_calls in R. lia.
    + intros D σ' R'. by eapply boot_after_done.
Qed.
End BootOfConstructed.

(** * The definitions at work *)

(** C3 — the empty [Version] is not rejected.  With a kubeconfig path as
    the only connection parameter and every identity field set but
    [Version], whatever the collaborators do, [New] goes on to call the
    client factory right after the three reads; with collaborators that
    succeed it returns a service and no error. *)
Theorem New_accepts_empty_Version :
  Version (example.kubeconfig_only "") = ""
  ∧ (∀ W : Collaborators example.handles, ∃ c tl,
       trace (New W (example.kubeconfig_only "")) =
         strategy_reads example.flags ++ K8sClientNewClients c :: tl)
  ∧ ∃ s, value (New example.world (example.kubeconfig_only "")) = Some (Some s, None).
Proof.
  split; [reflexivity|]. split.
  - intros W. unfold New, trace; cbn. New_calls; eauto.
  - eexists. reflexivity.
Qed.

Lemma New_requires_handles_witness :
  New example.world (example.config None None "") =
    ([], Some (invalid "service.Config.Logger must not be empty")).
Proof.
  apply (proj1 (New_requires_handles example.world (example.config None None ""))).
  reflexivity.
Defined.

Lemma New_no_connection_parameter_witness :
  ∃ msg,
    value (New example.world example.no_strategy) = Some (invalid msg)
    ∧ Forall (λ ev, is_call ev = false) (trace (New example.world example.no_strategy))
    ∧ (fields_present example.no_strategy →
       trace (New example.world example.no_strategy) = strategy_reads example.flags
       ∧ msg = "address or inCluster or kubeConfigPath must be defined").
Proof.
  apply (New_no_connection_parameter example.world example.no_strategy example.flags
           (example.settings example.provider [])); reflexivity.
Defined.

Lemma New_several_connection_parameters_witness :
  ∃ msg,
    value (New example.world example.two_strategies) = Some (invalid msg)
    ∧ Forall (λ ev, is_call ev = false) (trace (New example.world example.two_strategies))
    ∧ (fields_present example.two_strategies →
       trace (New example.world example.two_strategies) = strategy_reads example.flags
       ∧ msg = "address and inCluster and kubeConfigPath must not be defined at the same time").
Proof.
  apply (New_several_connection_parameters example.world example.two_strategies
           example.flags example.two_settings); [reflexivity | reflexivity |].
  left. split; [discriminate | reflexivity].
Defined.

Lemma New_validates_strategy_first_witness :
  (∃ msg, value (New example.world example.two_strategies) = Some (invalid msg))
  ∧ Forall (λ ev, is_call ev = false) (trace (New example.world example.two_strategies)).
Proof.
  apply (proj1 (New_validates_strategy_first example.world example.two_strategies)
           example.flags example.two_settings); [reflexivity | reflexivity |].
  vm_compute. discriminate.
Defined.

Lemma New_kubeconfig_only_witness :
  Forall (λ ev, is_rest_build ev = false)
    (trace (New example.world (example.kubeconfig_only "1.0")))
  ∧ settings_read (trace (New example.world (example.kubeconfig_only "1.0")))
      `prefix_of` strategy_reads example.flags ++ provider_reads example.flags
  ∧ ∃ tl, trace (New example.world (example.kubeconfig_only "1.0")) =
      strategy_reads example.flags ++
      K8sClientNewClients
        (k8sclient.Build_ClientsConfig example.handles (Some ())
           [k8sclient.v1alpha1_AddToScheme; k8sclient.capiv1alpha3_AddToScheme]
           "/etc/kube/config" None) :: tl.
Proof.
  destruct (proj1 (New_kubeconfig_only example.world (example.kubeconfig_only "1.0"))
              example.flags example.kubeconfig_settings
              eq_refl eq_refl eq_refl eq_refl) as (Hrest & Hread & Hpass).
  { discriminate. }
  split; [exact Hrest|]. split; [exact Hread|].
  apply Hpass. repeat split; discriminate.
Defined.

Lemma New_all_or_nothing_witness :
  value (New example.world_rejecting_collectors example.in_cluster) =
    Some (None, Some (Mask (Foreign "invalid collector config"))).
Proof.
  eapply (proj1 (New_all_or_nothing example.world_rejecting_collectors example.in_cluster));
    [|reflexivity].
  vm_compute. repeat first [apply list_elem_of_here | apply list_elem_of_further].
Defined.

Lemma Boot_starts_both_collector_sets_witness :
  goroutines (Boot (H := example.handles) 7 (constructed example.service)) =
    [operatorCollector_Boot (H := example.handles) "operator" 7;
     statusResourceCollector_Boot (H := example.handles) "status" 7].
Proof.
  exact (proj1 (proj2 (Boot_starts_both_collector_sets example.world example.in_cluster
                         example.service None 7 eq_refl))).
Defined.

Lemma Boot_runs_start_sequence_once_witness :
  foldl (λ p c, Boot (H := example.handles) c p) (constructed example.service) [1; 2; 3] =
    Boot (H := example.handles) 1 (constructed example.service).
Proof.
  exact (proj1 (proj1 (Boot_runs_start_sequence_once example.world example.in_cluster
                         example.service None 1 [2; 3] eq_refl))).
Defined.

(** * More on the construction pipeline *)

Section Pipeline.
Context {H : Handles} (W : Collaborators H).

(** [New] goes on to its collaborators exactly when the three handles are
    there, the four checked identity fields are not empty and exactly one
    connection parameter is defined.  Nothing else is checked first: not
    the [Version], not the provider settings, not the TLS settings. *)
Theorem New_connects_iff (config : Config H) :
  Exists (λ ev, is_call ev = true) (trace (New W config)) ↔
  ∃ f v, Flag config = Some f ∧ Viper config = Some v ∧ fields_present config
    ∧ exactly_one (address f v) (inCluster f v) (kubeConfigPath f v).
Proof.
  unfold exactly_one. New_fields config.
  1-4, 6-12: split;
    [intros M; by apply Exists_nil in M
    |intros (f0 & v0 & ? & ? & ? & _); first [discriminate | intuition congruence]].
  split.
  - intros M. exists f, v. split; [done|]. split; [done|]. split; [done|].
    revert M. New_strategy.
    2-3, 5-6, 8:
      intros M; repeat (apply Exists_cons in M as [M|M]; [discriminate|]);
      by apply Exists_nil in M.
    all: intros _; intuition congruence.
  - intros (f0 & v0 & ? & ? & _ & X); simplify_eq. revert X. New_strategy.
    2-3, 5-6, 8: intros X; exfalso; intuition congruence.
    all: intros _; New_calls.
    all: repeat first [by apply Exists_cons_hd | apply Exists_cons_tl].
Qed.

(** With the address or the in-cluster flag as the only defined connection
    parameter, [New] has [buildK8sRestConfig] build the REST descriptor
    right after the three reads: the six descriptor settings are read and
    [k8srestconfig.New] gets the address and the flag the count was taken
    from.  When that call fails, [New] stops there and returns its error
    masked twice; when it succeeds, the client factory is the next action
    and gets the descriptor with an empty kubeconfig path. *)
Theorem New_builds_rest_descriptor (config : Config H) f v :
  Flag config = Some f → Viper config = Some v → fields_present config →
  kubeConfigPath f v = "" →
  (address f v ≠ "" ∧ inCluster f v = false) ∨ (address f v = "" ∧ inCluster f v = true) →
  ∃ tl,
    trace (New W config) =
      strategy_reads f ++ descriptor_reads f ++ K8sRestConfigNew (rest_request config f v) :: tl
    ∧ match k8srestconfig_New W (rest_request config f v) with
      | inl err =>
          tl = [] ∧ value (New W config) = Some (None, Some (Mask (Mask (Foreign err))))
      | inr restConfig =>
          ∃ tl', tl =
            K8sClientNewClients {|
              k8sclient.Logger := Logger config;
              k8sclient.SchemeBuilder :=
                [k8sclient.v1alpha1_AddToScheme; k8sclient.capiv1alpha3_AddToScheme];
              k8sclient.KubeConfigPath := "";
              k8sclient.RestConfig := Some restConfig |} :: tl'
      end.
Proof.
  unfold rest_request, descriptor_reads, strategy_reads.
  New_fields config.
  1-4, 6-12: intros; first [discriminate | intuition congruence].
  intros ? ? _; simplify_eq. New_strategy.
  all: intros K X; try (exfalso; intuition congruence).
  all: clear X; New_calls; rewrite ?K; eauto.
Qed.

(** The calls of a leaf of [New]: a fixed list, with the results of the
    collaborators among the hypotheses. *)
Ltac leaf :=
  unfold calls, failure, masked, stage; cbn;
  repeat match goal with E : _ = inl _ |- _ => rewrite E | E : _ = inr _ |- _ => rewrite E end.

(** A leaf of [New] without a call. *)
Ltac nocalls :=
  split; [apply sublist_nil_l|]; split; [intros ? ? L; done|];
  split; [intros ? ? L; done|];
  split; [intros [? ?]; done | intros (? & ? & _); done].

(** [New] stops at the first failure.  The calls of a run follow the
    pipeline (REST descriptor, clients, infrastructure collector set, status
    collector set, version service), each made at most once; every call but
    the last succeeded; a last call that failed is the error [New] returns,
    masked; and [New] returns a service exactly when its last call is the
    one to the version service and it succeeded. *)
Theorem New_stops_at_first_failure (config : Config H) :
  stage <$> calls (trace (New W config)) `sublist_of` [1; 2; 3; 4; 5]
  ∧ (∀ i ev, calls (trace (New W config)) !! i = Some ev →
       S i < length (calls (trace (New W config))) → failure W ev = None)
  ∧ (∀ ev err, last (calls (trace (New W config))) = Some ev → failure W ev = Some err →
       value (New W config) = Some (None, Some (masked ev err)))
  ∧ ((∃ s, value (New W config) = Some (Some s, None)) ↔
     ∃ ev, last (calls (trace (New W config))) = Some ev
           ∧ stage ev = 5 ∧ failure W ev = None).
Proof.
  New_fields config.
  1-4, 6-12: nocalls.
  New_strategy.
  2-3, 5-6, 8: nocalls.
  all: New_calls; leaf.
  all: split; [repeat constructor|].
  all: split;
    [intros [|[|[|[|[|?]]]]] ev L Hl; cbn in *; simplify_eq; try lia; leaf; done|].
  all: split; [intros ev err L F; simplify_eq; revert F; leaf; intros; by simplify_eq|].
  all: split; [intros [? ?]; simplify_eq; (eexists; split; [reflexivity|]; leaf; done)|].
  all: intros (ev & L & S5 & F); simplify_eq; try done; revert F; leaf; try done; eauto.
Qed.

(** What a service returned by [New] is made of.  One client, the one the
    client factory returned, serves both collector sets: the infrastructure
    set gets it with the three provider settings as read, the status set
    watches through it over all namespaces (the empty namespace).  The
    version service is built from the identity fields as given, the project
    name as its name and the empty or not [Version] as it is, with the
    project's one version bundle.  All three get the logger of [config]. *)
Theorem New_wires_one_client (config : Config H) s e :
  value (New W config) = Some (Some s, e) →
  ∃ f v cc k,
    Flag config = Some f ∧ Viper config = Some v
    ∧ K8sClientNewClients cc ∈ trace (New W config)
    ∧ k8sclient.Logger cc = Logger config
    ∧ k8sclient.SchemeBuilder cc =
        [k8sclient.v1alpha1_AddToScheme; k8sclient.capiv1alpha3_AddToScheme]
    ∧ k8sclient_NewClients W cc = inr k
    ∧ collector_NewSet W {|
          collector.ControlPlaneResourceGroup :=
            viper.GetString v (flag.ControlPlaneResourceGroup (flag.Service_ f));
          collector.Location := viper.GetString v (flag.Location (flag.Service_ f));
          collector.Logger := Logger config;
          collector.K8sClient := k;
          collector.GSTenantID :=
            viper.GetString v (flag.SPTenantID (flag.Azure_ (flag.Service_ f))) |}
        = inr (operatorCollector s)
    ∧ statusresource_NewCollectorSet W {|
          statusresource.Logger := Logger config;
          statusresource.Watcher_ := statusresource.AzureConfigs_Watch k "" |}
        = inr (statusResourceCollector s)
    ∧ version_New W {|
          version.Description := Description config;
          version.GitCommit := GitCommit config;
          version.Name := ProjectName config;
          version.Source := Source config;
          version.Version := Version config;
          version.VersionBundles := [project_NewVersionBundle W] |}
        = inr (Version_ s).
Proof.
  revert s e. New_fields config; try (intros; simplify_eq; fail).
  intros s0 e0. New_strategy; try (intros; simplify_eq; fail).
  all: New_calls; intros E; simplify_eq; cbn.
  all: exists f, v; do 2 eexists.
  all: split; [reflexivity|]; split; [reflexivity|].
  all: split; [repeat first [apply list_elem_of_here | apply list_elem_of_further]|].
  all: cbn; split; [reflexivity|]; split; [reflexivity|].
  all: repeat split; first [eassumption | reflexivity].
Qed.

(** The errors of [New] are of two kinds, told apart by what the run did.
    An [invalidConfigError] carries one of the nine texts of [New] and comes
    from a run without any call to a collaborator.  Every other error is the
    masked error of the last call of the run, which failed. *)
Theorem New_error_kinds (config : Config H) e :
  value (New W config) = Some (None, Some e) →
  (∃ msg, e = Maskf invalidConfigError msg ∧ msg ∈ invalid_texts
          ∧ calls (trace (New W config)) = [])
  ∨ (∃ ev err, last (calls (trace (New W config))) = Some ev
               ∧ failure W ev = Some err ∧ e = masked ev err).
Proof.
  unfold invalid_texts. revert e. New_fields config.
  1-4, 6-12: intros e0 E; simplify_eq; left; eexists; split; [reflexivity|];
    split; [repeat first [apply list_elem_of_here | apply list_elem_of_further] | done].
  intros e0. New_strategy.
  2-3, 5-6, 8: intros E; simplify_eq; left; eexists; split; [reflexivity|];
    split; [repeat first [apply list_elem_of_here | apply list_elem_of_further] | done].
  all: New_calls; intros E; simplify_eq; right.
  all: unfold calls; cbn; do 2 eexists; split; [reflexivity|].
  all: unfold failure, masked;
    repeat match goal with E : _ = inl _ |- _ => rewrite E end; done.
Qed.
End Pipeline.

(** * More on the boot guard *)

Section GuardMore.
Context {H : Handles} (s : Service H) (ctxs : list (context_Context H)).

(** From every state of the invariant the callers can all be run to their
    return. *)
Lemma boot_completes σ :
  boot_inv s ctxs σ → ∃ σ', rtc step σ σ' ∧ all_returned σ'.
Proof.
  remember (weight σ) as n eqn:E. revert σ E.
  induction n as [n IH] using lt_wf_ind. intros σ -> I.
  destruct (decide (all_returned σ)) as [A|A]; [by exists σ|].
  destruct (boot_progress s ctxs σ I A) as [σ1 St].
  destruct (IH (weight σ1) (step_weight _ _ St) σ1 eq_refl) as (σ' & R & A');
    [by eapply boot_inv_step|].
  exists σ'. split; [by eapply rtc_l | done].
Qed.

(** The guard, once set, stays set. *)
Lemma boot_done_stable σ σ' :
  boot_inv s ctxs σ → sync.done (bootOnce (svc (proc σ))) = true → rtc step σ σ' →
  sync.done (bootOnce (svc (proc σ'))) = true.
Proof.
  intros I D R. induction R as [|σ1 σ2 σ3 St R IH]; [done|].
  destruct (boot_step_after_done s ctxs _ _ I D St) as [D' _].
  apply IH; [by eapply boot_inv_step | done].
Qed.
End GuardMore.

Section BootMore.
Context {H : Handles} (W : Collaborators H).

(** No caller leaves [Boot] before the start sequence is over: in every
    interleaving, as soon as one caller has returned, whichever it is, both
    run loops have been started. *)
Theorem Boot_return_means_started (config : Config H) s e ctxs σ i c :
  value (New W config) = Some (Some s, e) →
  rtc step (boot_calls s ctxs) σ →
  callers σ !! i = Some c → point c = Returned →
  ∃ c', c' ∈ ctxs ∧ goroutines (proc σ) = started s c'.
Proof.
  intros E R L P. apply New_service in E as (_ & Z & _).
  pose proof (boot_inv_reachable s ctxs σ Z R) as I.
  apply (inv_done _ _ _ I).
  pose proof (inv_local _ _ _ I i c L) as Lc. unfold local_ok in Lc.
  by rewrite P in Lc.
Qed.

(** The start sequence is run under the mutex of the guard: in every
    interleaving at most one caller stands between [Lock] and [Unlock], and
    the mutex is held exactly when one does. *)
Theorem Boot_start_sequence_is_exclusive (config : Config H) s e ctxs σ :
  value (New W config) = Some (Some s, e) →
  rtc step (boot_calls s ctxs) σ →
  (∀ i j ci cj, callers σ !! i = Some ci → callers σ !! j = Some cj →
     holds_lock (point ci) = true → holds_lock (point cj) = true → i = j)
  ∧ (sync.m (bootOnce (svc (proc σ))) = true ↔
     ∃ i c, callers σ !! i = Some c ∧ holds_lock (point c) = true).
Proof.
  intros E R. apply New_service in E as (_ & Z & _).
  pose proof (boot_inv_reachable s ctxs σ Z R) as I.
  split; [apply (inv_excl _ _ _ I)|].
  split; [apply (inv_locked _ _ _ I)|].
  intros (i & c & L & Hc). by eapply (inv_holder _ _ _ I).
Qed.

(** Every caller of [Boot] gets its return: from every state the callers can
    reach, they can all be run to their return, and then exactly one start
    sequence has run. *)
Theorem Boot_callers_all_return (config : Config H) s e ctxs σ :
  value (New W config) = Some (Some s, e) → ctxs ≠ [] →
  rtc step (boot_calls s ctxs) σ →
  ∃ σ' c, rtc step σ σ' ∧ all_returned σ'
          ∧ c ∈ ctxs ∧ goroutines (proc σ') = started s c.
Proof.
  intros E NE R. apply New_service in E as (_ & Z & _).
  pose proof (boot_inv_reachable s ctxs σ Z R) as I.
  destruct (boot_completes s ctxs σ I) as (σ' & R' & A).
  assert (boot_inv s ctxs σ') as I'
    by (apply boot_inv_reachable; [done | by etrans]).
  destruct (boot_exactly_once s ctxs σ' NE I' A) as (c & ? & ?).
  by exists σ', c.
Qed.

(** [Boot] changes nothing of the service but its guard: in every
    interleaving the version service and the two collector sets are the ones
    [New] put there, every caller keeps the context it passed, and a guard
    that is set is never reset. *)
Theorem Boot_keeps_service (config : Config H) s e ctxs σ :
  value (New W config) = Some (Some s, e) →
  rtc step (boot_calls s ctxs) σ →
  Version_ (svc (proc σ)) = Version_ s
  ∧ operatorCollector (svc (proc σ)) = operatorCollector s
  ∧ statusResourceCollector (svc (proc σ)) = statusResourceCollector s
  ∧ ctx <$> callers σ = ctxs
  ∧ (sync.done (bootOnce (svc (proc σ))) = true →
     ∀ σ', rtc step σ σ' → sync.done (bootOnce (svc (proc σ'))) = true).
Proof.
  intros E R. apply New_service in E as (_ & Z & _).
  pose proof (boot_inv_reachable s ctxs σ Z R) as I.
  split; [apply (inv_version _ _ _ I)|].
  split; [apply (inv_operator _ _ _ I)|].
  split; [apply (inv_status _ _ _ I)|].
  split; [apply (inv_ctxs _ _ _ I)|].
  intros D σ' R'. by eapply boot_done_stable.
Qed.
End BootMore.

(** * More of the definitions at work *)

(** Seven steps of the first caller lead to [example_first_returned]. *)
Lemma example_first_returned_reachable :
  rtc step (boot_calls example.service [1; 2]) example_first_returned.
Proof.
  unfold boot_calls, example_first_returned; cbn.
  do 7 (eapply rtc_l; [eapply (step_caller _ 0); reflexivity | cbn]).
  apply rtc_refl.
Qed.

Lemma New_requires_identity_fields_witness :
  New example.world example_without_project_name =
    ([], Some (invalid "service.Config.ProjectName must not be empty")).
Proof.
  apply (New_requires_identity_fields example.world example_without_project_name);
    try discriminate; reflexivity.
Defined.

Lemma New_builds_rest_descriptor_witness :
  ∃ tl,
    trace (New example.world example.in_cluster) =
      strategy_reads example.flags ++ descriptor_reads example.flags ++
      K8sRestConfigNew
        (rest_request example.in_cluster example.flags example_in_cluster_settings) :: tl
    ∧ ∃ tl', tl =
        K8sClientNewClients
          (k8sclient.Build_ClientsConfig example.handles (Some ())
             [k8sclient.v1alpha1_AddToScheme; k8sclient.capiv1alpha3_AddToScheme]
             "" (Some "rest")) :: tl'.
Proof.
  apply (New_builds_rest_descriptor example.world example.in_cluster example.flags
           example_in_cluster_settings); try reflexivity.
  - repeat split; discriminate.
  - right. split; reflexivity.
Defined.

Lemma New_wires_one_client_witness :
  ∃ f v cc k,
    Flag example.in_cluster = Some f ∧ Viper example.in_cluster = Some v
    ∧ K8sClientNewClients cc ∈ trace (New example.world example.in_cluster)
    ∧ k8sclient.Logger cc = Logger example.in_cluster
    ∧ k8sclient.SchemeBuilder cc =
        [k8sclient.v1alpha1_AddToScheme; k8sclient.capiv1alpha3_AddToScheme]
    ∧ k8sclient_NewClients example.world cc = inr k
    ∧ collector_NewSet example.world
        (collector.Build_SetConfig example.handles
           (viper.GetString v (flag.ControlPlaneResourceGroup (flag.Service_ f)))
           (viper.GetString v (flag.Location (flag.Service_ f)))
           (Logger example.in_cluster) k
           (viper.GetString v (flag.SPTenantID (flag.Azure_ (flag.Service_ f)))))
        = inr (operatorCollector example.service)
    ∧ statusresource_NewCollectorSet example.world
        (statusresource.Build_CollectorSetConfig example.handles
           (Logger example.in_cluster) (statusresource.AzureConfigs_Watch k ""))
        = inr (statusResourceCollector example.service)
    ∧ version_New example.world
        (version.Build_Config example.handles
           (Description example.in_cluster) (GitCommit example.in_cluster)
           (ProjectName example.in_cluster) (Source example.in_cluster)
           (Version example.in_cluster) [project_NewVersionBundle example.world])
        = inr (Version_ example.service).
Proof.
  exact (New_wires_one_client example.world example.in_cluster example.service None eq_refl).
Defined.

Lemma New_error_kinds_witness :
  (∃ msg, Mask (Foreign "invalid collector config") = Maskf invalidConfigError msg
          ∧ msg ∈ invalid_texts
          ∧ calls (trace (New example.world_rejecting_collectors example.in_cluster)) = [])
  ∨ (∃ ev err,
       last (calls (trace (New example.world_rejecting_collectors example.in_cluster)))
         = Some ev
       ∧ failure example.world_rejecting_collectors ev = Some err
       ∧ Mask (Foreign "invalid collector config") = masked ev err).
Proof.
  exact (New_error_kinds example.world_rejecting_collectors example.in_cluster _ eq_refl).
Defined.

Lemma Boot_return_means_started_witness :
  ∃ c', c' ∈ [1; 2]
        ∧ goroutines (proc example_first_returned) = started example.service c'.
Proof.
  exact (Boot_return_means_started example.world example.in_cluster example.service None
           [1; 2] example_first_returned 0 (Build_Caller example.handles Returned 1)
           eq_refl example_first_returned_reachable eq_refl eq_refl).
Defined.

Lemma Boot_start_sequence_is_exclusive_witness :
  (∀ i j ci cj,
     callers example_first_returned !! i = Some ci →
     callers example_first_returned !! j = Some cj →
     holds_lock (point ci) = true → holds_lock (point cj) = true → i = j)
  ∧ (sync.m (bootOnce (svc (proc example_first_returned))) = true ↔
     ∃ i c, callers example_first_returned !! i = Some c ∧ holds_lock (point c) = true).
Proof.
  exact (Boot_start_sequence_is_exclusive example.world example.in_cluster example.service
           None [1; 2] example_first_returned eq_refl example_first_returned_reachable).
Defined.

Lemma Boot_callers_all_return_witness :
  ∃ σ' c, rtc step example_first_returned σ' ∧ all_returned σ'
          ∧ c ∈ [1; 2] ∧ goroutines (proc σ') = started example.service c.
Proof.
  apply (Boot_callers_all_return example.world example.in_cluster example.service None
           [1; 2] example_first_returned eq_refl); [discriminate|].
  exact example_first_returned_reachable.
Defined.

Lemma Boot_keeps_service_witness :
  Version_ (svc (proc example_first_returned)) = Version_ example.service
  ∧ operatorCollector (svc (proc example_first_returned)) = operatorCollector example.service
  ∧ statusResourceCollector (svc (proc example_first_returned))
    = statusResourceCollector example.service
  ∧ ctx <$> callers example_first_returned = [1; 2]
  ∧ (sync.done (bootOnce (svc (proc example_first_returned))) = true →
     ∀ σ', rtc step example_first_returned σ' →
           sync.done (bootOnce (svc (proc σ'))) = true).
Proof.
  exact (Boot_keeps_service example.world example.in_cluster example.service None
           [1; 2] example_first_returned eq_refl example_first_returned_reachable).
Defined.
